(** * sparkbot-starterkit/bot.js: the webhook dispatcher

    A shallow embedding of [bot.js]: the two payload validators, the
    [Webhook] constructor with the routes it registers, and the five route
    handlers.  A handler is a computation that emits a trace of observable
    effects (console lines, HTTP responses, the outbound HTTPS request,
    invocations of the registered callback) and either completes or throws. *)

From Stdlib Require Import String List ZArith Bool Lia.
Import ListNotations.
Local Open Scope string_scope.
Local Open Scope Z_scope.
Local Open Scope list_scope.
Set Warnings "-register-all".

(** ** JavaScript values *)

(** An IEEE-754 double, as far as its class goes: the code only ever asks
    whether a number is truthy. *)
Inductive number : Type :=
| NZero (negative : bool)
| NNaN
| NInfinity (negative : bool)
| NFinite (negative : bool) (mantissa : positive) (exponent : Z).

(** The values that reach the code: a request body produced by body-parser,
    the result of [JSON.parse], the configuration object.  An object is the
    list of its own properties. *)
Inductive jsval : Type :=
| JUndefined
| JNull
| JBool (b : bool)
| JNum (x : number)
| JStr (s : string)
| JArr (items : list jsval)
| JObj (fields : list (string * jsval)).

(** ToBoolean: what [!v] and [if (v)] test. *)
Definition truthy (v : jsval) : bool :=
  match v with
  | JUndefined | JNull => false
  | JBool b => b
  | JNum (NZero _) | JNum NNaN => false
  | JNum _ => true
  | JStr s => negb (String.eqb s "")
  | JArr _ | JObj _ => true
  end.

Fixpoint lookup (k : string) (fields : list (string * jsval)) : jsval :=
  match fields with
  | [] => JUndefined
  | (k', v) :: rest => if String.eqb k' k then v else lookup k rest
  end.

(** [v.k] for the property names the code reads ([id], [name], [resource],
    [event], [data], [personId], [personEmail], [roomId], [created], [text],
    [files], the configuration keys): none of them is defined on a
    primitive or on an array, so only an object can answer.  Every read in
    the source is guarded by a truthiness test of [v], so [null.k] and
    [undefined.k] (a TypeError) are never evaluated. *)
Definition get (v : jsval) (k : string) : jsval :=
  match v with
  | JObj fields => lookup k fields
  | _ => JUndefined
  end.

(** [a || b] *)
Definition jor (a b : jsval) : jsval := if truthy a then a else b.

(** [a === "lit"] *)
Definition is_string (lit : string) (a : jsval) : bool :=
  match a with
  | JStr s => String.eqb s lit
  | _ => false
  end.

(** ** Text built by concatenation *)

(** ['prefix' + v], [JSON.stringify(v)] and [new Date(ms).toISOString()] are
    kept symbolic: a text is the list of the pieces that were concatenated. *)
Inductive piece : Type :=
| Lit (s : string)
| Val (v : jsval)
| Stringify (v : jsval)
| IsoDate (ms : Z).

Definition text := list piece.

(** A property of an object literal passed to [res.json]. *)
Inductive field : Type :=
| Txt (t : text)
| Raw (v : jsval).

(** ** Validators *)

(** Both are modelled by what they return.  The line each prints on the
    console when it turns a payload down is not recorded: a trace holds the
    console lines of the constructor and of the handlers. *)

(** [valideTrigger]: the payload itself when [id], [name], [resource] and
    [event] are all truthy, [undefined] otherwise. *)
Definition valideTrigger (payload : jsval) : jsval :=
  if negb (truthy payload)
     || negb (truthy (get payload "id"))
     || negb (truthy (get payload "name"))
     || negb (truthy (get payload "resource"))
     || negb (truthy (get payload "event"))
  then JUndefined
  else payload.

(** [validateMessage] *)
Definition validateMessage (payload : jsval) : jsval :=
  if negb (truthy payload)
     || negb (truthy (get payload "id"))
     || negb (truthy (get payload "personId"))
     || negb (truthy (get payload "personEmail"))
     || negb (truthy (get payload "roomId"))
     || negb (truthy (get payload "created"))
  then JUndefined
  else if negb (truthy (get payload "text")) && negb (truthy (get payload "files"))
  then JUndefined
  else payload.

(** ** Effects *)

Inductive exn : Type :=
| SyntaxError
| ReferenceError (name : string).

(** The [options] object handed to [https.request]. *)
Record request_options : Type := {
  method : string;
  hostname : string;
  path : text;
  headers : list (string * text)
}.

(** The result of [JSON.parse(Buffer.concat(chunks))] on the body the
    platform sent back: a value, or a SyntaxError when the body is not JSON. *)
Inductive parsed : Type :=
| Json (payload : jsval)
| Malformed.

(** How the outbound call ends: the response's ['end'] event fires with a
    status code and the assembled body, or the request's ['error'] event
    fires. *)
Inductive outcome : Type :=
| Answered (statusCode : Z) (body : parsed)
| Failed (err : jsval).

Inductive verb : Type := GET | HEAD | POST | OtherVerb.

Record request : Type := {
  req_verb : verb;
  req_url : string;
  req_body : jsval
}.

Inductive endpoint : Type := Health | RestWebhook | OutgoingIntegration.

(** How a piece of JavaScript ends: with a value, or with an exception. *)
Inductive completion (A : Type) : Type :=
| Normal (a : A)
| Throw (e : exn).
Arguments Normal {A} a.
Arguments Throw {A} e.

Section Dispatcher.

(** The functions a user may pass to [register]. *)
Context {callback : Type}.

Inductive effect : Type :=
| Log (line : text)
| Respond (status : Z) (json : list (string * field))
| HttpsRequest (options : request_options)
| Invoke (registered : callback) (message : jsval).

(** A piece of JavaScript: what it did, then how it ended. *)
Definition js (A : Type) : Type := (list effect * completion A)%type.

Definition ret {A} (a : A) : js A := ([], Normal a).
Definition throw {A} (e : exn) : js A := ([], Throw e).
Definition emit (e : effect) : js unit := ([e], Normal tt).
Definition bind {A B} (c : js A) (k : A -> js B) : js B :=
  match c with
  | (t, Normal a) => let (t', r) := k a in (t ++ t', r)
  | (t, Throw e) => (t, Throw e)
  end.

Notation "x <- c ;; k" := (bind c (fun x => k))
  (at level 61, c at next level, right associativity).
Notation "c ;; k" := (bind c (fun _ => k))
  (at level 61, right associativity).

Definition trace {A} (c : js A) : list effect := fst c.

(** [res.status(code).json({'message': ...})] *)
Definition respond (code : Z) (message : text) : js unit :=
  emit (Respond code [("message", Txt message)]).

Definition console_log (line : text) : js unit := emit (Log line).

Definition JSON_parse (body : parsed) : js jsval :=
  match body with
  | Json payload => ret payload
  | Malformed => throw SyntaxError
  end.

(** The instance [self]: its configuration, its start time and the
    callback slot that [register] fills. *)
Record bot : Type := {
  config : jsval;
  started : Z;
  handler : option callback
}.

Definition register (self : bot) (registered : callback) : bot :=
  {| config := config self; started := started self;
     handler := Some registered |}.

Definition execute (self : bot) (message : jsval) : js unit :=
  match handler self with
  | Some registered => emit (Invoke registered message)
  | None => ret tt
  end.

(** The [options] of the message-by-id call. *)
Definition options (self : bot) (messageId : jsval) : request_options :=
  {| method := "GET";
     hostname := "api.ciscospark.com";
     path := [Lit "/v1/messages/"; Val messageId];
     headers := [("authorization",
                  [Lit "Bearer "; Val (get (config self) "token")])] |}.

(** The outbound call is followed from [req.end()] on: [https.request] is
    taken to accept its options, and [net] is what becomes of the call.  A
    path that [https.request] refuses (an id with characters that are not
    legal in a request path) makes it throw before any request goes out;
    that case is outside the outcomes considered here. *)
Definition triggerMessageCreatedEvent
    (self : bot) (triggerData : jsval) (net : outcome) : js unit :=
  if negb (truthy (get triggerData "id")) then
    console_log [Lit "no message id, aborting..."] ;;
    respond 500 [Lit "could not retreive the message contents, no message id there !"]
  else
    let messageId := get triggerData "id" in
    console_log [Lit "requesting message contents"] ;;
    emit (HttpsRequest (options self messageId)) ;;
    match net with
    | Answered statusCode body =>
        console_log [Lit "assembling message"] ;;
        payload <- JSON_parse body ;;
        if negb (statusCode =? 200) then
          console_log [Lit "bad response when retreiving message with id: "; Val messageId] ;;
          respond 500 [Lit "bad response when retreiving the text of the message with id:"; Val messageId]
        else
          let message := validateMessage payload in
          if negb (truthy message) then
            console_log [Lit "unexpected message format, aborting..."] ;;
            respond 200 [Lit "no content to process for new message with id:"; Val messageId]
          else
            respond 200 [Lit "message is being processed by webhook"] ;;
            console_log [Lit "now processing 'message/created' event with contents: "; Stringify message] ;;
            execute self message
    | Failed err =>
        console_log [Lit "cannot retreive message with id: "; Val messageId;
                     Lit ", error: "; Stringify err] ;;
        respond 500 [Lit "could not retreive the text of the message with id:"; Val messageId]
    end.

(** *** Route handlers *)

Definition health_get (self : bot) : js unit :=
  emit (Respond 200
          [("message", Txt [Lit "Congrats, your bot is up and running"]);
           ("since", Txt [IsoDate (started self)]);
           ("integrationURI", Raw (jor (get (config self) "integrationURI") JNull));
           ("webhookURI", Raw (jor (get (config self) "webhookURI") JNull));
           ("processable", Txt [Lit "[messages/created]"])]).

Definition webhook_get : js unit :=
  console_log [Lit "GET received instead of a POST"] ;;
  respond 400 [Lit "This REST webhook is expecting an HTTP POST"].

Definition webhook_post (self : bot) (body : jsval) (net : outcome) : js unit :=
  console_log [Lit "REST webhook invoked"] ;;
  if negb (truthy body)
     || negb (truthy (get body "data"))
     || negb (truthy (get body "resource"))
     || negb (truthy (get body "event"))
  then
    console_log [Lit "Unexpected payload: no data, resource or event in body, aborting..."] ;;
    emit (Respond 400
            [("message", Txt [Lit "Wrong payload, a data+resource+event payload is expected for REST webhooks"]);
             ("details", Txt [Lit "either the bot is misconfigured or Cisco Spark is running a new API version"])])
  else
    let resource := get body "resource" in
    let event := get body "event" in
    let data := get body "data" in
    if is_string "messages" resource then
      if is_string "created" event then
        triggerMessageCreatedEvent self data net
      else
        console_log [Lit "this webhook does not support this resource/event type: messages/deleted"] ;;
        respond 500 [Lit "This webhook does not support this resource/event type: messages/deleted"]
    else
      console_log [Lit "this webhook does not support this resource/event type: ";
                   Val resource; Lit "/"; Val event] ;;
      respond 500 [Lit "This webhook does not support this resource/event type: ";
                   Val resource; Lit "/"; Val event].

Definition integration_get : js unit :=
  console_log [Lit "GET received instead of a POST"] ;;
  respond 400 [Lit "This outgoing integration is expecting an HTTP POST"].

(** In the rejecting branch the source writes to [originalResponse], a name
    that is bound only inside [triggerMessageCreatedEvent]: evaluating it
    here throws before anything is sent. *)
Definition integration_post (self : bot) (body : jsval) : js unit :=
  console_log [Lit "outgoing integration invoked "] ;;
  let message := validateMessage body in
  if negb (truthy message) then
    console_log [Lit "unexpected message format, aborting: "; Val message] ;;
    throw (ReferenceError "originalResponse")
  else
    respond 200 [Lit "message processed by integration"] ;;
    console_log [Lit "invoking message handler: "; Stringify message] ;;
    execute self message.

(** *** The constructor *)

(** What [Webhook(config)] leaves behind: the instance, the routes added
    to [app] in registration order, the port handed to [app.listen] and
    the lines it printed. *)
Record server : Type := {
  instance : bot;
  app : list (jsval * endpoint);
  port : jsval;
  console : list effect
}.

Definition number_8080 : jsval := JNum (NFinite false 8080 0).

(** [now] is [Date.now()], [env_PORT] is [process.env.PORT]. *)
Definition Webhook (config : jsval) (now : Z) (env_PORT : jsval) : server :=
  let defaulted := negb (truthy config) in
  let config := if defaulted
                then JObj [("integrationURI", JStr "/integration")]
                else config in
  let health := jor (get config "healthURI") (JStr "/ping") in
  let port := jor (get config "port") (jor env_PORT number_8080) in
  {| instance := {| config := config; started := now; handler := None |};
     app := [(health, Health)]
            ++ (if truthy (get config "webhookURI")
                then [(get config "webhookURI", RestWebhook)] else [])
            ++ (if truthy (get config "integrationURI")
                then [(get config "integrationURI", OutgoingIntegration)] else []);
     port := port;
     console := (if defaulted
                 then [Log [Lit "no configuration => starting up as an incoming integration..."]]
                 else [])
                ++ [Log [Lit "Cisco Spark bot started on port: "; Val port]] |}.

(** [bot.register(f)] on a started server. *)
Definition registered_with (srv : server) (f : callback) : server :=
  {| instance := register (instance srv) f; app := app srv;
     port := port srv; console := console srv |}.

(** *** Routing *)

(** Express, as far as the source relies on it: routes are tried in the
    order they were registered, a route answers when its path is the
    requested one and it has a handler for the verb ([HEAD] falls back on
    the [get] handler), and since no handler calls [next] the first route
    that answers is the only one that runs.  Paths are literal strings, and
    a request is matched when its path is exactly the registered one.
    Express also lets a path through in another letter case or with a
    trailing slash, and reads some characters of a registered path as a
    pattern; the properties below only ever need a literal path to match
    itself. *)
Definition path_matches (p : jsval) (url : string) : bool :=
  match p with
  | JStr s => String.eqb s url
  | _ => false
  end.

Definition handles (e : endpoint) (v : verb) : bool :=
  match e, v with
  | _, GET | _, HEAD => true
  | RestWebhook, POST | OutgoingIntegration, POST => true
  | _, _ => false
  end.

Fixpoint route (table : list (jsval * endpoint)) (req : request) : option endpoint :=
  match table with
  | [] => None
  | (p, e) :: rest =>
      if path_matches p (req_url req) && handles e (req_verb req)
      then Some e
      else route rest req
  end.

(** One inbound request, with the fate of the outbound call it may make.
    A request that no route answers runs none of the source's code. *)
Definition serve (srv : server) (req : request) (net : outcome) : js unit :=
  match route (app srv) req with
  | Some Health => health_get (instance srv)
  | Some RestWebhook =>
      match req_verb req with
      | POST => webhook_post (instance srv) (req_body req) net
      | _ => webhook_get
      end
  | Some OutgoingIntegration =>
      match req_verb req with
      | POST => integration_post (instance srv) (req_body req)
      | _ => integration_get
      end
  | None => ret tt
  end.

(** *** Reading a trace *)

Fixpoint statuses (t : list effect) : list Z :=
  match t with
  | [] => []
  | Respond code _ :: rest => code :: statuses rest
  | _ :: rest => statuses rest
  end.

(** Which callback was called with what, in order. *)
Fixpoint invocations (t : list effect) : list (callback * jsval) :=
  match t with
  | [] => []
  | Invoke registered message :: rest => (registered, message) :: invocations rest
  | _ :: rest => invocations rest
  end.

Fixpoint outbound (t : list effect) : list request_options :=
  match t with
  | [] => []
  | HttpsRequest options :: rest => options :: outbound rest
  | _ :: rest => outbound rest
  end.

(** The first response on the trace is a [code], and nothing was invoked
    before it. *)
Fixpoint responds_first (code : Z) (t : list effect) : bool :=
  match t with
  | [] => false
  | Respond c _ :: _ => c =? code
  | Invoke _ _ :: _ => false
  | _ :: rest => responds_first code rest
  end.

(** The [message] texts of the responses on a trace. *)
Fixpoint messages (t : list effect) : list text :=
  match t with
  | [] => []
  | Respond _ (("message", Txt m) :: _) :: rest => m :: messages rest
  | _ :: rest => messages rest
  end.

(** A payload passes Message validation when [validateMessage] hands it
    back rather than [undefined]. *)
Definition passes_validation (payload : jsval) : Prop :=
  truthy (validateMessage payload) = true.

(** *** Ways of addressing the server *)

(** A POST that the REST-webhook route answers. *)
Definition webhook_post_to (srv : server) (req : request) : Prop :=
  req_verb req = POST /\ route (app srv) req = Some RestWebhook.

(** A POST that the outgoing-integration route answers. *)
Definition integration_post_to (srv : server) (req : request) : Prop :=
  req_verb req = POST /\ route (app srv) req = Some OutgoingIntegration.

(** A body that carries [data], [resource] and [event]. *)
Definition has_envelope (body : jsval) : Prop :=
  truthy (get body "data") = true
  /\ truthy (get body "resource") = true
  /\ truthy (get body "event") = true.

(** A body that the switch sends to [triggerMessageCreatedEvent]. *)
Definition dispatched_created (body : jsval) : Prop :=
  truthy (get body "data") = true
  /\ get body "resource" = JStr "messages"
  /\ get body "event" = JStr "created".

End Dispatcher.

(** ** The Message shape, in the words of the specification *)

Definition required_fields : list string :=
  ["id"; "personId"; "personEmail"; "roomId"; "created"].

(** A field is missing when the payload has no such property. *)
Definition missing (payload : jsval) (k : string) : Prop :=
  get payload k = JUndefined.

(** A field is present when the code's own test finds it. *)
Definition present (payload : jsval) (k : string) : bool :=
  truthy (get payload k).

(** "Valid iff the four identity fields and [created] are present, and at
    least one of [text]/[files] is present." *)
Definition message_shape (payload : jsval) : bool :=
  forallb (present payload) required_fields
  && (present payload "text" || present payload "files").

(** The response texts that tell the sender its request is not supported. *)
Definition says_not_supported (m : text) : bool :=
  match m with
  | Lit s :: _ =>
      String.prefix "This webhook does not support this resource/event type" s
      || String.eqb s "message format is not supported"
  | _ => false
  end.

(** ** Sample data *)

Definition sample_message : jsval :=
  JObj [("id", JStr "m1"); ("personId", JStr "p1");
        ("personEmail", JStr "matt@example.com"); ("roomId", JStr "r1");
        ("text", JStr "PROJECT UPDATE");
        ("created", JStr "2015-10-18T14:26:16+00:00")].

(** [sample_message] without its [created]. *)
Definition sample_undated : jsval :=
  JObj [("id", JStr "m1"); ("personId", JStr "p1");
        ("personEmail", JStr "matt@example.com"); ("roomId", JStr "r1");
        ("text", JStr "PROJECT UPDATE")].

(** [sample_message] with an empty [id]. *)
Definition sample_empty_id : jsval :=
  JObj [("id", JStr ""); ("personId", JStr "p1");
        ("personEmail", JStr "matt@example.com"); ("roomId", JStr "r1");
        ("text", JStr "PROJECT UPDATE");
        ("created", JStr "2015-10-18T14:26:16+00:00")].

(** An empty [text] and no [files]. *)
Definition sample_empty_text : jsval :=
  JObj [("id", JStr "m1"); ("personId", JStr "p1");
        ("personEmail", JStr "matt@example.com"); ("roomId", JStr "r1");
        ("text", JStr "");
        ("created", JStr "2015-10-18T14:26:16+00:00")].

(** An empty [files] list and no [text]. *)
Definition sample_no_files : jsval :=
  JObj [("id", JStr "m1"); ("personId", JStr "p1");
        ("personEmail", JStr "matt@example.com"); ("roomId", JStr "r1");
        ("files", JArr []);
        ("created", JStr "2015-10-18T14:26:16+00:00")].

(** [{resource, event, data: {id: "m1"}}] *)
Definition envelope (resource event : string) : jsval :=
  JObj [("resource", JStr resource); ("event", JStr event);
        ("data", JObj [("id", JStr "m1")])].

(** The same created envelope, with a [data] that has every field of a
    Trigger. *)
Definition envelope_with_trigger_data : jsval :=
  JObj [("resource", JStr "messages"); ("event", JStr "created");
        ("data", JObj [("id", JStr "m1"); ("name", JStr "Guild Chat");
                       ("resource", JStr "messages");
                       ("event", JStr "created")])].

(** The same envelope with a [data] that carries no [id]. *)
Definition envelope_without_id : jsval :=
  JObj [("resource", JStr "messages"); ("event", JStr "created");
        ("data", JObj [("roomId", JStr "r1")])].

Definition webhook_config : jsval :=
  JObj [("webhookURI", JStr "/webhook"); ("token", JStr "SECRET")].

Definition port_only_config : jsval :=
  JObj [("port", number_8080)].

(** Callbacks named by a string. *)
Definition webhook_bot : @server string :=
  registered_with (Webhook webhook_config 0 JUndefined) "onMessage".

Definition default_bot : @server string :=
  registered_with (Webhook JUndefined 0 JUndefined) "onMessage".

Definition post (url : string) (body : jsval) : request :=
  {| req_verb := POST; req_url := url; req_body := body |}.

(** ** Further vocabulary *)

(** The fields [valideTrigger] looks at. *)
Definition trigger_fields : list string := ["id"; "name"; "resource"; "event"].

(** "Valid iff [id], [name], [resource], [event] are all present and
    non-empty." *)
Definition trigger_shape (payload : jsval) : bool :=
  forallb (present payload) trigger_fields.

(** Every field [validateMessage] looks at. *)
Definition message_fields : list string :=
  required_fields ++ ["text"; "files"].

Definition is_object (v : jsval) : bool :=
  match v with
  | JObj _ => true
  | _ => false
  end.

(** The status codes the handlers write. *)
Definition known_status (code : Z) : bool :=
  (code =? 200) || (code =? 400) || (code =? 500).

(** ** More sample data *)

(** The trigger of the platform's documentation, abridged. *)
Definition sample_trigger : jsval :=
  JObj [("id", JStr "t1"); ("name", JStr "Guild Chat");
        ("resource", JStr "messages"); ("event", JStr "created");
        ("filter", JStr "roomId=r1");
        ("data", JObj [("id", JStr "m1"); ("roomId", JStr "r1")])].

(** [sample_trigger] without its [name]. *)
Definition sample_unnamed_trigger : jsval :=
  JObj [("id", JStr "t1");
        ("resource", JStr "messages"); ("event", JStr "created");
        ("data", JObj [("id", JStr "m1"); ("roomId", JStr "r1")])].

(** An envelope with no [event]. *)
Definition sample_eventless : jsval :=
  JObj [("resource", JStr "messages");
        ("data", JObj [("id", JStr "m1")])].


Definition integration_config : jsval :=
  JObj [("integrationURI", JStr "/in"); ("healthURI", JStr "/alive");
        ("port", JNum (NZero false))].

(** A webhook bot on which nothing was registered. *)
Definition silent_bot : @server string :=
  Webhook webhook_config 0 JUndefined.

Definition integration_bot : @server string :=
  registered_with (Webhook integration_config 7 (JStr "3000")) "onMessage".

Definition fetch (url : string) : request :=
  {| req_verb := GET; req_url := url; req_body := JUndefined |}.

(** * Properties *)

(** ** The validators *)

Lemma get_of_falsy (v : jsval) (k : string) :
  truthy v = false -> get v k = JUndefined.
Proof. destruct v; cbn; intros H; try reflexivity; discriminate H. Qed.

Lemma missing_not_present (payload : jsval) (k : string) :
  missing payload k -> present payload k = false.
Proof. unfold missing, present. intros ->. reflexivity. Qed.

Lemma present_truthy (payload : jsval) (k : string) :
  present payload k = true -> truthy payload = true.
Proof.
  unfold present. destruct (truthy payload) eqn:Hp; [reflexivity|].
  rewrite (get_of_falsy _ _ Hp). discriminate.
Qed.

(** [validateMessage] accepts exactly the payloads of Message shape. *)
Lemma validateMessage_eq (payload : jsval) :
  validateMessage payload = if message_shape payload then payload else JUndefined.
Proof.
  unfold validateMessage, message_shape, required_fields, present.
  cbn [forallb].
  destruct (truthy payload) eqn:Hp.
  - destruct (truthy (get payload "id")), (truthy (get payload "personId")),
      (truthy (get payload "personEmail")), (truthy (get payload "roomId")),
      (truthy (get payload "created")), (truthy (get payload "text")),
      (truthy (get payload "files")); reflexivity.
  - rewrite !(get_of_falsy payload _ Hp). reflexivity.
Qed.

(** What [validateMessage] returns is [undefined] or its argument, never
    anything else. *)
Lemma validateMessage_cases (payload : jsval) :
  validateMessage payload = JUndefined
  \/ (validateMessage payload = payload /\ message_shape payload = true).
Proof.
  rewrite validateMessage_eq.
  destruct (message_shape payload); [right; split; reflexivity | left; reflexivity].
Qed.

Lemma passes_validation_fix (payload : jsval) :
  passes_validation payload -> validateMessage payload = payload.
Proof.
  unfold passes_validation.
  destruct (validateMessage_cases payload) as [-> | [H _]]; [discriminate | auto].
Qed.

Lemma message_shape_passes (payload : jsval) :
  message_shape payload = true -> passes_validation payload.
Proof.
  intros H. unfold passes_validation. rewrite validateMessage_eq, H.
  unfold message_shape in H. apply andb_prop in H as [H _].
  cbn [forallb required_fields] in H. apply andb_prop in H as [H _].
  exact (present_truthy _ _ H).
Qed.

(** A validated message is still valid when validated again. *)
Lemma validated_passes (payload : jsval) :
  passes_validation payload -> passes_validation (validateMessage payload).
Proof. intros H. rewrite (passes_validation_fix _ H). exact H. Qed.

Lemma required_not_present (payload : jsval) (k : string) :
  In k required_fields -> present payload k = false ->
  message_shape payload = false.
Proof.
  intros Hk Hf. unfold message_shape.
  apply andb_false_intro1.
  destruct (forallb (present payload) required_fields) eqn:Hall; [|reflexivity].
  rewrite forallb_forall in Hall. rewrite (Hall k Hk) in Hf. discriminate.
Qed.

(** C9: a payload that misses one of [id], [personId], [personEmail],
    [roomId], [created], or has neither [text] nor [files], is answered with
    [undefined]; a payload in which the five are present together with
    [text] or [files] is returned as it is.  Presence is what the code
    tests, so [validateMessage] accepts exactly the Message shape. *)
Theorem validateMessage_accepts_message_shape (payload : jsval) :
  (forall k, In k required_fields -> missing payload k ->
             validateMessage payload = JUndefined)
  /\ (missing payload "text" -> missing payload "files" ->
      validateMessage payload = JUndefined)
  /\ (message_shape payload = true ->
      validateMessage payload = payload /\ passes_validation payload)
  /\ validateMessage payload
     = (if message_shape payload then payload else JUndefined).
Proof.
  split; [|split; [|split]].
  - intros k Hk Hm. rewrite validateMessage_eq.
    rewrite (required_not_present payload k Hk (missing_not_present _ _ Hm)).
    reflexivity.
  - intros Ht Hf. rewrite validateMessage_eq. unfold message_shape.
    rewrite (missing_not_present _ _ Ht), (missing_not_present _ _ Hf).
    rewrite andb_false_r. reflexivity.
  - intros Hshape. split.
    + rewrite validateMessage_eq, Hshape. reflexivity.
    + apply message_shape_passes, Hshape.
  - apply validateMessage_eq.
Qed.

(** C10: presence is truthiness.  A required field holding the empty string
    makes the payload invalid; an empty [text] does not count as text; an
    empty [files] list does count, so with the five required fields in
    place a payload with [files: []] is valid even without any [text]. *)
Theorem validateMessage_presence_is_truthiness (payload : jsval) :
  (forall k, In k required_fields -> get payload k = JStr "" ->
             validateMessage payload = JUndefined)
  /\ (get payload "text" = JStr "" -> present payload "files" = false ->
      validateMessage payload = JUndefined)
  /\ (forallb (present payload) required_fields = true ->
      get payload "files" = JArr [] ->
      passes_validation payload /\ validateMessage payload = payload).
Proof.
  split; [|split].
  - intros k Hk He. rewrite validateMessage_eq.
    rewrite (required_not_present payload k Hk); [reflexivity|].
    unfold present. rewrite He. reflexivity.
  - intros Ht Hf. rewrite validateMessage_eq. unfold message_shape.
    unfold present in *. rewrite Ht, Hf. cbn. rewrite andb_false_r. reflexivity.
  - intros Hreq Hfiles.
    assert (Hshape : message_shape payload = true).
    { unfold message_shape. rewrite Hreq. unfold present.
      rewrite Hfiles. cbn. apply orb_true_r. }
    split.
    + apply message_shape_passes, Hshape.
    + rewrite validateMessage_eq, Hshape. reflexivity.
Qed.

(** ** The dispatcher *)

Section Properties.

Context {callback : Type}.
Implicit Types (srv : @server callback) (self : @bot callback)
               (t : list (@effect callback)).

Lemma is_string_spec (lit : string) (v : jsval) :
  is_string lit v = true <-> v = JStr lit.
Proof.
  destruct v; cbn; try (split; intro; discriminate).
  rewrite String.eqb_eq. split; [intros -> | intros [= ->]]; reflexivity.
Qed.

Lemma envelope_truthy (body : jsval) :
  truthy (get body "data") = true -> truthy body = true.
Proof. apply (present_truthy body "data"). Qed.

Lemma invocations_app t t' :
  invocations (t ++ t') = invocations t ++ invocations t'.
Proof.
  induction t as [|e t IH]; [reflexivity|].
  destruct e; cbn; rewrite IH; reflexivity.
Qed.

(** *** Routing *)

Lemma serve_webhook_post srv req net :
  webhook_post_to srv req ->
  serve srv req net = webhook_post (instance srv) (req_body req) net.
Proof. intros [Hv Hr]. unfold serve. rewrite Hr, Hv. reflexivity. Qed.

Lemma serve_integration_post srv req net :
  integration_post_to srv req ->
  serve srv req net = integration_post (instance srv) (req_body req).
Proof. intros [Hv Hr]. unfold serve. rewrite Hr, Hv. reflexivity. Qed.


(** *** [triggerMessageCreatedEvent], branch by branch *)

Lemma trigger_without_id self data net :
  truthy (get data "id") = false ->
  triggerMessageCreatedEvent self data net
  = ([Log [Lit "no message id, aborting..."];
      Respond 500 [("message", Txt [Lit "could not retreive the message contents, no message id there !"])]],
     Normal tt).
Proof. unfold triggerMessageCreatedEvent. intros ->. reflexivity. Qed.

Lemma trigger_malformed_body self data statusCode :
  truthy (get data "id") = true ->
  triggerMessageCreatedEvent self data (Answered statusCode Malformed)
  = ([Log [Lit "requesting message contents"];
      HttpsRequest (options self (get data "id"));
      Log [Lit "assembling message"]],
     Throw SyntaxError).
Proof. unfold triggerMessageCreatedEvent. intros ->. reflexivity. Qed.

Lemma trigger_bad_status self data statusCode payload :
  truthy (get data "id") = true -> statusCode <> 200 ->
  triggerMessageCreatedEvent self data (Answered statusCode (Json payload))
  = ([Log [Lit "requesting message contents"];
      HttpsRequest (options self (get data "id"));
      Log [Lit "assembling message"];
      Log [Lit "bad response when retreiving message with id: "; Val (get data "id")];
      Respond 500 [("message", Txt [Lit "bad response when retreiving the text of the message with id:";
                                    Val (get data "id")])]],
     Normal tt).
Proof.
  unfold triggerMessageCreatedEvent. intros -> Hs.
  apply Z.eqb_neq in Hs. cbn. rewrite Hs. reflexivity.
Qed.

Lemma trigger_transport_error self data err :
  truthy (get data "id") = true ->
  triggerMessageCreatedEvent self data (Failed err)
  = ([Log [Lit "requesting message contents"];
      HttpsRequest (options self (get data "id"));
      Log [Lit "cannot retreive message with id: "; Val (get data "id");
           Lit ", error: "; Stringify err];
      Respond 500 [("message", Txt [Lit "could not retreive the text of the message with id:";
                                    Val (get data "id")])]],
     Normal tt).
Proof. unfold triggerMessageCreatedEvent. intros ->. reflexivity. Qed.

Lemma trigger_unsupported_message self data payload :
  truthy (get data "id") = true ->
  truthy (validateMessage payload) = false ->
  triggerMessageCreatedEvent self data (Answered 200 (Json payload))
  = ([Log [Lit "requesting message contents"];
      HttpsRequest (options self (get data "id"));
      Log [Lit "assembling message"];
      Log [Lit "unexpected message format, aborting..."];
      Respond 200 [("message", Txt [Lit "no content to process for new message with id:";
                                    Val (get data "id")])]],
     Normal tt).
Proof.
  unfold triggerMessageCreatedEvent. intros -> Hv.
  cbn -[validateMessage]. rewrite Hv. reflexivity.
Qed.

Lemma trigger_valid_message self data message :
  truthy (get data "id") = true ->
  passes_validation message ->
  triggerMessageCreatedEvent self data (Answered 200 (Json message))
  = ([Log [Lit "requesting message contents"];
      HttpsRequest (options self (get data "id"));
      Log [Lit "assembling message"];
      Respond 200 [("message", Txt [Lit "message is being processed by webhook"])];
      Log [Lit "now processing 'message/created' event with contents: ";
           Stringify message]]
     ++ match handler self with
        | Some registered => [Invoke registered message]
        | None => []
        end,
     Normal tt).
Proof.
  unfold triggerMessageCreatedEvent. intros -> Hv.
  cbn -[validateMessage]. rewrite Hv, (passes_validation_fix _ Hv).
  unfold execute. destruct (handler self); reflexivity.
Qed.

(** A created envelope goes to [triggerMessageCreatedEvent] on its [data]. *)
Lemma webhook_post_created self body net :
  dispatched_created body ->
  webhook_post self body net
  = (Log [Lit "REST webhook invoked"]
       :: fst (triggerMessageCreatedEvent self (get body "data") net),
     snd (triggerMessageCreatedEvent self (get body "data") net)).
Proof.
  intros (Hd & Hr & He). unfold webhook_post.
  rewrite (envelope_truthy _ Hd), Hd, Hr, He.
  cbn -[triggerMessageCreatedEvent].
  destruct (triggerMessageCreatedEvent self (get body "data") net) as [t []];
    reflexivity.
Qed.

(** *** REST webhook *)

(** C1: a POST to the webhook route with resource "messages", event
    "created" and a data that carries an id, whose enrichment call comes
    back 200 with a body that passes Message validation, is answered 200
    once, before anything is invoked, and the registered callback is then
    invoked with that message exactly once. *)
Theorem created_valid_message_acknowledged_then_delivered
    srv req (registered : callback) (message : jsval) :
  webhook_post_to srv req ->
  dispatched_created (req_body req) ->
  truthy (get (get (req_body req) "data") "id") = true ->
  handler (instance srv) = Some registered ->
  passes_validation message ->
  let t := trace (serve srv req (Answered 200 (Json message))) in
  statuses t = [200]
  /\ responds_first 200 t = true
  /\ invocations t = [(registered, message)].
Proof.
  intros Hto Hd Hid Hh Hv t. subst t.
  rewrite (serve_webhook_post _ _ _ Hto), (webhook_post_created _ _ _ Hd).
  rewrite (trigger_valid_message _ _ _ Hid Hv), Hh.
  repeat split.
Qed.

(** The intent behind the status test: when the body of a non-200 answer
    is JSON, the caller gets a 500 and nothing is invoked. *)
Lemma bad_status_with_json_body srv req statusCode payload :
  webhook_post_to srv req ->
  dispatched_created (req_body req) ->
  truthy (get (get (req_body req) "data") "id") = true ->
  statusCode <> 200 ->
  let t := trace (serve srv req (Answered statusCode (Json payload))) in
  statuses t = [500] /\ invocations t = [].
Proof.
  intros Hto Hd Hid Hs t. subst t.
  rewrite (serve_webhook_post _ _ _ Hto), (webhook_post_created _ _ _ Hd).
  rewrite (trigger_bad_status _ _ _ _ Hid Hs).
  split; reflexivity.
Qed.

(** [JSON.parse] runs before the status is looked at: a body that is not
    JSON ends the listener with a SyntaxError, whatever the status, and
    the caller is never answered. *)
Lemma malformed_body_unanswered srv req statusCode :
  webhook_post_to srv req ->
  dispatched_created (req_body req) ->
  truthy (get (get (req_body req) "data") "id") = true ->
  let r := serve srv req (Answered statusCode Malformed) in
  statuses (trace r) = [] /\ invocations (trace r) = []
  /\ snd r = Throw SyntaxError.
Proof.
  intros Hto Hd Hid r. subst r.
  rewrite (serve_webhook_post _ _ _ Hto), (webhook_post_created _ _ _ Hd).
  rewrite (trigger_malformed_body _ _ _ Hid).
  repeat split.
Qed.

(** C7: same request, the enrichment call comes back 200 with a body that
    fails Message validation: the caller gets a 200 saying there is
    nothing to process, and the callback is not invoked. *)
Theorem created_unsupported_message_acknowledged
    srv req (payload : jsval) :
  webhook_post_to srv req ->
  dispatched_created (req_body req) ->
  truthy (get (get (req_body req) "data") "id") = true ->
  truthy (validateMessage payload) = false ->
  let t := trace (serve srv req (Answered 200 (Json payload))) in
  statuses t = [200]
  /\ invocations t = []
  /\ messages t = [[Lit "no content to process for new message with id:";
                    Val (get (get (req_body req) "data") "id")]].
Proof.
  intros Hto Hd Hid Hv t. subst t.
  rewrite (serve_webhook_post _ _ _ Hto), (webhook_post_created _ _ _ Hd).
  rewrite (trigger_unsupported_message _ _ _ Hid Hv).
  repeat split.
Qed.


(** What [triggerMessageCreatedEvent] reads of its [triggerData] is the
    [id], nothing else. *)
Lemma trigger_reads_id_only self data data' net :
  get data' "id" = get data "id" ->
  triggerMessageCreatedEvent self data' net
  = triggerMessageCreatedEvent self data net.
Proof. unfold triggerMessageCreatedEvent. intros ->. reflexivity. Qed.

(** C4, as the code has it: the nested data is not validated as a Trigger,
    it is looked at for its id and nothing else.  Without a truthy id the
    caller gets a 500, no outbound call is made and nothing is invoked; and
    two created envelopes whose data carry the same id are handled alike,
    whatever else their data hold or lack. *)
Theorem trigger_data_checked_for_id_only srv req net :
  webhook_post_to srv req ->
  dispatched_created (req_body req) ->
  let data := get (req_body req) "data" in
  let t := trace (serve srv req net) in
  (truthy (get data "id") = false ->
   statuses t = [500] /\ outbound t = [] /\ invocations t = [])
  /\ (forall req',
        webhook_post_to srv req' ->
        dispatched_created (req_body req') ->
        get (get (req_body req') "data") "id" = get data "id" ->
        serve srv req' net = serve srv req net).
Proof.
  intros Hto Hd data t. subst data t.
  rewrite (serve_webhook_post _ _ _ Hto), (webhook_post_created _ _ _ Hd).
  split.
  - intros Hid. rewrite (trigger_without_id _ _ _ Hid). repeat split.
  - intros req' Hto' Hd' Hsame.
    rewrite (serve_webhook_post _ _ _ Hto'), (webhook_post_created _ _ _ Hd').
    rewrite (trigger_reads_id_only _ _ _ _ Hsame). reflexivity.
Qed.

(** *** Outgoing integration *)

Lemma integration_post_valid self body :
  passes_validation body ->
  integration_post self body
  = ([Log [Lit "outgoing integration invoked "];
      Respond 200 [("message", Txt [Lit "message processed by integration"])];
      Log [Lit "invoking message handler: "; Stringify body]]
     ++ match handler self with
        | Some registered => [Invoke registered body]
        | None => []
        end,
     Normal tt).
Proof.
  intros Hv. unfold integration_post.
  cbn -[validateMessage]. rewrite Hv, (passes_validation_fix _ Hv).
  unfold execute. destruct (handler self); reflexivity.
Qed.

(** The rejecting branch never gets to send its 200. *)
Lemma integration_post_invalid self body :
  truthy (validateMessage body) = false ->
  integration_post self body
  = ([Log [Lit "outgoing integration invoked "];
      Log [Lit "unexpected message format, aborting: "; Val JUndefined]],
     Throw (ReferenceError "originalResponse")).
Proof.
  intros Hv. unfold integration_post.
  cbn -[validateMessage]. rewrite Hv.
  destruct (validateMessage_cases body) as [-> | [_ Hs]]; [reflexivity|].
  apply message_shape_passes in Hs. unfold passes_validation in Hs.
  rewrite Hs in Hv. discriminate.
Qed.

(** *** The callback *)

Lemma trigger_invokes_validated self data net f m :
  In (f, m) (invocations (trace (triggerMessageCreatedEvent self data net))) ->
  passes_validation m /\ handler self = Some f.
Proof.
  destruct (truthy (get data "id")) eqn:Hid.
  - destruct net as [statusCode [payload|] | err].
    + destruct (Z.eq_dec statusCode 200) as [-> | Hs].
      * destruct (truthy (validateMessage payload)) eqn:Hv.
        -- rewrite (trigger_valid_message _ _ _ Hid Hv).
           destruct (handler self); cbn; [|tauto].
           intros [[= <- <-] | []]. split; [exact Hv | reflexivity].
        -- rewrite (trigger_unsupported_message _ _ _ Hid Hv). cbn. tauto.
      * rewrite (trigger_bad_status _ _ _ _ Hid Hs). cbn. tauto.
    + rewrite (trigger_malformed_body _ _ _ Hid). cbn. tauto.
    + rewrite (trigger_transport_error _ _ _ Hid). cbn. tauto.
  - rewrite (trigger_without_id _ _ _ Hid). cbn. tauto.
Qed.

Lemma webhook_post_invokes_validated self body net f m :
  In (f, m) (invocations (trace (webhook_post self body net))) ->
  passes_validation m /\ handler self = Some f.
Proof.
  destruct (is_string "messages" (get body "resource")) eqn:Hres;
    [destruct (is_string "created" (get body "event")) eqn:Hev;
     [destruct (truthy (get body "data")) eqn:Hd|]|].
  - assert (Hc : dispatched_created body).
    { split; [exact Hd | split; apply is_string_spec; assumption]. }
    rewrite (webhook_post_created _ _ _ Hc). cbn [trace fst invocations].
    apply trigger_invokes_validated.
  - unfold webhook_post. rewrite Hd, orb_true_r. cbn [negb orb]. cbn. tauto.
  - unfold webhook_post. rewrite Hres, Hev.
    destruct (negb (truthy body) || negb (truthy (get body "data"))
              || negb (truthy (get body "resource"))
              || negb (truthy (get body "event"))); cbn; tauto.
  - unfold webhook_post. rewrite Hres.
    destruct (negb (truthy body) || negb (truthy (get body "data"))
              || negb (truthy (get body "resource"))
              || negb (truthy (get body "event"))); cbn; tauto.
Qed.

Lemma integration_post_invokes_validated self body f m :
  In (f, m) (invocations (trace (integration_post self body))) ->
  passes_validation m /\ handler self = Some f.
Proof.
  destruct (truthy (validateMessage body)) eqn:Hv.
  - rewrite (integration_post_valid _ _ Hv).
    destruct (handler self); cbn; [|tauto].
    intros [[= <- <-] | []]. split; [exact Hv | reflexivity].
  - rewrite (integration_post_invalid _ _ Hv). cbn. tauto.
Qed.

(** C2: whatever the request, the route table and the fate of the outbound
    call, a callback invocation on the trace is an invocation of the
    registered callback with a payload that passes Message validation. *)
Theorem callback_only_given_validated_message
    srv req net (f : callback) (m : jsval) :
  In (f, m) (invocations (trace (serve srv req net))) ->
  passes_validation m /\ handler (instance srv) = Some f.
Proof.
  unfold serve.
  destruct (route (app srv) req) as [[]|]; destruct (req_verb req);
    try (cbn; tauto);
    try apply webhook_post_invokes_validated;
    apply integration_post_invokes_validated.
Qed.

(** *** Construction *)

(** C5, as the code has it: the default is taken when no configuration is
    passed at all, and then the outgoing-integration route is registered
    at "/integration"; a configuration that names neither URI gets the
    health route and nothing else. *)
Theorem default_integration_route (config : jsval) now env_PORT :
  (truthy config = false ->
   app (callback := callback) (Webhook config now env_PORT)
   = [(JStr "/ping", Health); (JStr "/integration", OutgoingIntegration)])
  /\ (truthy config = true ->
      present config "webhookURI" = false ->
      present config "integrationURI" = false ->
      app (callback := callback) (Webhook config now env_PORT)
      = [(jor (get config "healthURI") (JStr "/ping"), Health)]).
Proof.
  unfold Webhook, present. cbv zeta. split.
  - intros ->. reflexivity.
  - intros Hc Hw Hi. rewrite Hc. cbn [negb app].
    rewrite Hw, Hi. reflexivity.
Qed.

End Properties.

(** ** The properties at work on sample requests *)

Lemma validateMessage_accepts_message_shape_witness :
  validateMessage sample_undated = JUndefined
  /\ validateMessage sample_message = sample_message.
Proof.
  split.
  - apply (proj1 (validateMessage_accepts_message_shape sample_undated) "created").
    + simpl. tauto.
    + reflexivity.
  - apply (proj1 (proj2 (proj2 (validateMessage_accepts_message_shape sample_message)))).
    reflexivity.
Defined.

Lemma validateMessage_presence_is_truthiness_witness :
  validateMessage sample_empty_id = JUndefined
  /\ validateMessage sample_empty_text = JUndefined
  /\ validateMessage sample_no_files = sample_no_files.
Proof.
  split; [|split].
  - apply (proj1 (validateMessage_presence_is_truthiness sample_empty_id) "id").
    + simpl. tauto.
    + reflexivity.
  - apply (proj1 (proj2 (validateMessage_presence_is_truthiness sample_empty_text)));
      reflexivity.
  - apply (proj2 (proj2 (validateMessage_presence_is_truthiness sample_no_files)));
      reflexivity.
Defined.

Lemma created_valid_message_acknowledged_then_delivered_witness :
  let t := trace (serve webhook_bot (post "/webhook" (envelope "messages" "created"))
                        (Answered 200 (Json sample_message))) in
  statuses t = [200]
  /\ responds_first 200 t = true
  /\ invocations t = [("onMessage", sample_message)].
Proof.
  apply (created_valid_message_acknowledged_then_delivered
           webhook_bot (post "/webhook" (envelope "messages" "created"))
           "onMessage" sample_message).
  - split; reflexivity.
  - repeat split.
  - reflexivity.
  - reflexivity.
  - reflexivity.
Defined.

Lemma callback_only_given_validated_message_witness :
  passes_validation sample_message
  /\ handler (instance webhook_bot) = Some "onMessage".
Proof.
  apply (callback_only_given_validated_message
           webhook_bot (post "/webhook" (envelope "messages" "created"))
           (Answered 200 (Json sample_message))).
  simpl. left. reflexivity.
Defined.

Lemma created_unsupported_message_acknowledged_witness :
  let t := trace (serve webhook_bot (post "/webhook" (envelope "messages" "created"))
                        (Answered 200 (Json sample_undated))) in
  statuses t = [200]
  /\ invocations t = []
  /\ messages t = [[Lit "no content to process for new message with id:";
                    Val (JStr "m1")]].
Proof.
  apply (created_unsupported_message_acknowledged
           webhook_bot (post "/webhook" (envelope "messages" "created"))
           sample_undated).
  - split; reflexivity.
  - repeat split.
  - reflexivity.
  - reflexivity.
Defined.


Lemma trigger_data_checked_for_id_only_witness :
  (let t := trace (serve webhook_bot (post "/webhook" envelope_without_id)
                         (Answered 200 (Json sample_message))) in
   statuses t = [500] /\ outbound t = [] /\ invocations t = [])
  /\ serve webhook_bot (post "/webhook" envelope_with_trigger_data)
            (Answered 200 (Json sample_message))
     = serve webhook_bot (post "/webhook" (envelope "messages" "created"))
             (Answered 200 (Json sample_message)).
Proof.
  split.
  - apply (proj1 (trigger_data_checked_for_id_only
                    webhook_bot (post "/webhook" envelope_without_id)
                    (Answered 200 (Json sample_message))
                    (conj eq_refl eq_refl)
                    (conj eq_refl (conj eq_refl eq_refl)))).
    reflexivity.
  - apply (proj2 (trigger_data_checked_for_id_only
                    webhook_bot (post "/webhook" (envelope "messages" "created"))
                    (Answered 200 (Json sample_message))
                    (conj eq_refl eq_refl)
                    (conj eq_refl (conj eq_refl eq_refl)))
                 (post "/webhook" envelope_with_trigger_data)).
    + split; reflexivity.
    + repeat split.
    + reflexivity.
Defined.

Lemma default_integration_route_witness :
  app (callback := string) (Webhook JUndefined 0 JUndefined)
  = [(JStr "/ping", Health); (JStr "/integration", OutgoingIntegration)].
Proof.
  apply (proj1 (default_integration_route JUndefined 0 JUndefined)).
  reflexivity.
Defined.

(** ** Where the code departs from the specification *)

(** C4: a [data] that is no Trigger (it has an [id] but no [name],
    [resource] or [event]) is not turned away: the outbound call is made for
    its id and the callback gets the message. *)
Lemma trigger_shape_not_enforced :
  let data := get (envelope "messages" "created") "data" in
  let t := trace (serve webhook_bot (post "/webhook" (envelope "messages" "created"))
                        (Answered 200 (Json sample_message))) in
  valideTrigger data = JUndefined
  /\ outbound t = [options (instance webhook_bot) (JStr "m1")]
  /\ statuses t = [200]
  /\ invocations t = [("onMessage", sample_message)].
Proof. repeat split. Qed.

(** C5: a configuration that sets neither [webhookURI] nor [integrationURI]
    gets no outgoing-integration route, at "/integration" or elsewhere. *)
Lemma config_without_uris_gets_no_integration_route :
  present port_only_config "webhookURI" = false
  /\ present port_only_config "integrationURI" = false
  /\ app (callback := string) (Webhook port_only_config 0 JUndefined)
     = [(JStr "/ping", Health)]
  /\ ~ In (JStr "/integration", OutgoingIntegration)
          (app (callback := string) (Webhook port_only_config 0 JUndefined)).
Proof.
  repeat split. simpl. intros [H | []]. discriminate H.
Qed.

(** C3: a POST to the integration route whose body lacks [created].  The
    rejecting branch reads [originalResponse], which is not in scope there:
    the handler throws, the 200 with "message format is not supported" is
    never sent, and nothing is invoked. *)
Theorem integration_rejection_never_answers :
  let r := serve default_bot (post "/integration" sample_undated) (Failed JNull) in
  integration_post_to default_bot (post "/integration" sample_undated)
  /\ validateMessage sample_undated = JUndefined
  /\ r = ([Log [Lit "outgoing integration invoked "];
           Log [Lit "unexpected message format, aborting: "; Val JUndefined]],
          Throw (ReferenceError "originalResponse"))
  /\ statuses (trace r) = []
  /\ invocations (trace r) = [].
Proof. repeat split. Qed.

(** C6: the enrichment call comes back 404 with a body that is not JSON.
    [JSON.parse] is applied before the status is tested, so the listener
    ends with a SyntaxError: the caller gets no 500, and no answer at all. *)
Theorem non_json_404_leaves_caller_unanswered :
  let r := serve webhook_bot (post "/webhook" (envelope "messages" "created"))
                 (Answered 404 Malformed) in
  webhook_post_to webhook_bot (post "/webhook" (envelope "messages" "created"))
  /\ r = ([Log [Lit "REST webhook invoked"];
           Log [Lit "requesting message contents"];
           HttpsRequest (options (instance webhook_bot) (JStr "m1"));
           Log [Lit "assembling message"]],
          Throw SyntaxError)
  /\ statuses (trace r) = []
  /\ invocations (trace r) = [].
Proof. repeat split. Qed.

(** * Further properties *)

(** ** The validators, beyond the Message shape *)

Lemma valideTrigger_eq (payload : jsval) :
  valideTrigger payload = if trigger_shape payload then payload else JUndefined.
Proof.
  unfold valideTrigger, trigger_shape, trigger_fields, present.
  cbn [forallb].
  destruct (truthy payload) eqn:Hp.
  - destruct (truthy (get payload "id")), (truthy (get payload "name")),
      (truthy (get payload "resource")), (truthy (get payload "event"));
      reflexivity.
  - rewrite !(get_of_falsy payload _ Hp). reflexivity.
Qed.

Lemma get_of_non_object (v : jsval) (k : string) :
  is_object v = false -> get v k = JUndefined.
Proof. destruct v; cbn; intros H; try reflexivity; discriminate H. Qed.

Lemma get_skips_other_field (k k' : string) (v : jsval) fields :
  k <> k' -> get (JObj ((k, v) :: fields)) k' = get (JObj fields) k'.
Proof.
  intros Hne. cbn. apply String.eqb_neq in Hne. rewrite Hne. reflexivity.
Qed.

(** [valideTrigger] accepts exactly the payloads in which [id], [name],
    [resource] and [event] are all truthy, and hands them back unchanged; a
    payload missing one of the four gets [undefined]. *)
Theorem valideTrigger_accepts_trigger_shape (payload : jsval) :
  (forall k, In k trigger_fields -> missing payload k ->
             valideTrigger payload = JUndefined)
  /\ valideTrigger payload
     = (if trigger_shape payload then payload else JUndefined).
Proof.
  split; [|apply valideTrigger_eq].
  intros k Hk Hm. rewrite valideTrigger_eq.
  destruct (trigger_shape payload) eqn:Hs; [|reflexivity].
  unfold trigger_shape in Hs. rewrite forallb_forall in Hs.
  specialize (Hs k Hk). rewrite (missing_not_present _ _ Hm) in Hs.
  discriminate Hs.
Qed.

(** Only an object can pass either validator: [null], [undefined], a
    boolean, a number, a string and an array are all answered with
    [undefined]. *)
Theorem validators_reject_non_objects (payload : jsval) :
  is_object payload = false ->
  validateMessage payload = JUndefined /\ valideTrigger payload = JUndefined.
Proof.
  intros Hobj. rewrite validateMessage_eq, valideTrigger_eq.
  unfold message_shape, trigger_shape, required_fields, trigger_fields, present.
  cbn [forallb]. rewrite !(get_of_non_object _ _ Hobj).
  split; reflexivity.
Qed.

(** A property that [validateMessage] does not look at ([toPersonId], say)
    changes nothing: the object with it is accepted when the object without
    it is, and is handed back with the property still on it. *)
Theorem validateMessage_ignores_other_fields
    (k : string) (v : jsval) (fields : list (string * jsval)) :
  ~ In k message_fields ->
  (validateMessage (JObj fields) = JObj fields ->
   validateMessage (JObj ((k, v) :: fields)) = JObj ((k, v) :: fields))
  /\ (validateMessage (JObj fields) = JUndefined ->
      validateMessage (JObj ((k, v) :: fields)) = JUndefined).
Proof.
  intros Hk.
  assert (Hshape : message_shape (JObj ((k, v) :: fields))
                   = message_shape (JObj fields)).
  { unfold message_shape, required_fields, present. cbn [forallb].
    rewrite !get_skips_other_field; [reflexivity|..];
      intros ->; apply Hk; cbn; tauto. }
  rewrite !validateMessage_eq, Hshape.
  destruct (message_shape (JObj fields)); split; intros H;
    try reflexivity; discriminate H.
Qed.

(** Validating twice is validating once, for both validators. *)
Theorem validators_idempotent (payload : jsval) :
  validateMessage (validateMessage payload) = validateMessage payload
  /\ valideTrigger (valideTrigger payload) = valideTrigger payload.
Proof.
  split.
  - destruct (validateMessage_cases payload) as [-> | [H _]].
    + reflexivity.
    + rewrite !H. reflexivity.
  - rewrite (valideTrigger_eq payload).
    destruct (trigger_shape payload) eqn:Hs.
    + rewrite valideTrigger_eq, Hs. reflexivity.
    + reflexivity.
Qed.

(** ** The dispatcher, route by route *)

Section Coverage.

Context {callback : Type}.
Implicit Types (srv : @server callback) (self : @bot callback)
               (t : list (@effect callback)).

(** Every way [triggerMessageCreatedEvent] can go, each with its trace. *)
Ltac trigger_cases self data net :=
  let Hid := fresh "Hid" in
  let Hs := fresh "Hs" in
  let Hv := fresh "Hv" in
  let statusCode := fresh "statusCode" in
  let payload := fresh "payload" in
  let err := fresh "err" in
  destruct (truthy (get data "id")) eqn:Hid;
  [ destruct net as [statusCode [payload|] | err];
    [ destruct (Z.eq_dec statusCode 200) as [-> | Hs];
      [ destruct (truthy (validateMessage payload)) eqn:Hv;
        [ rewrite (trigger_valid_message self data payload Hid Hv)
        | rewrite (trigger_unsupported_message self data payload Hid Hv) ]
      | rewrite (trigger_bad_status self data statusCode payload Hid Hs) ]
    | rewrite (trigger_malformed_body self data statusCode Hid)
    | rewrite (trigger_transport_error self data err Hid) ]
  | rewrite (trigger_without_id self data net Hid) ].

Lemma webhook_post_without_envelope self body net :
  ~ has_envelope body ->
  webhook_post self body net
  = ([Log [Lit "REST webhook invoked"];
      Log [Lit "Unexpected payload: no data, resource or event in body, aborting..."];
      Respond 400
        [("message", Txt [Lit "Wrong payload, a data+resource+event payload is expected for REST webhooks"]);
         ("details", Txt [Lit "either the bot is misconfigured or Cisco Spark is running a new API version"])]],
     Normal tt).
Proof.
  intros Hno. unfold webhook_post.
  destruct (truthy (get body "data")) eqn:Hd;
    destruct (truthy (get body "resource")) eqn:Hr;
    destruct (truthy (get body "event")) eqn:He;
    try (rewrite ?orb_true_r; reflexivity).
  exfalso. apply Hno. repeat split; assumption.
Qed.

Lemma webhook_post_unsupported self body net :
  has_envelope body ->
  is_string "messages" (get body "resource")
  && is_string "created" (get body "event") = false ->
  exists line m,
    says_not_supported m = true
    /\ webhook_post self body net
       = ([Log [Lit "REST webhook invoked"]; Log line;
           Respond 500 [("message", Txt m)]],
          Normal tt).
Proof.
  intros (Hd & Hr & He) Hpair. unfold webhook_post.
  rewrite (envelope_truthy _ Hd), Hd, Hr, He. cbn [negb orb].
  destruct (is_string "messages" (get body "resource")).
  - cbn [andb] in Hpair. rewrite Hpair.
    do 2 eexists. split; [|reflexivity]. reflexivity.
  - do 2 eexists. split; [|reflexivity]. reflexivity.
Qed.

Lemma webhook_post_trichotomy (body : jsval) :
  ~ has_envelope body
  \/ (has_envelope body
      /\ is_string "messages" (get body "resource")
         && is_string "created" (get body "event") = false)
  \/ dispatched_created body.
Proof.
  destruct (truthy (get body "data")) eqn:Hd;
    [destruct (truthy (get body "resource")) eqn:Hr;
     [destruct (truthy (get body "event")) eqn:He|]|];
    try (left; intros (H1 & H2 & H3); congruence).
  right.
  destruct (is_string "messages" (get body "resource")) eqn:Hres;
    [destruct (is_string "created" (get body "event")) eqn:Hev|].
  - right. split; [exact Hd | split; apply is_string_spec; assumption].
  - left. split; [repeat split; assumption | reflexivity].
  - left. split; [repeat split; assumption | reflexivity].
Qed.

(** Every way the two POST handlers can go. *)
Ltac webhook_cases self body net :=
  let Hno := fresh "Hno" in
  let Henv := fresh "Henv" in
  let Hpair := fresh "Hpair" in
  let Hc := fresh "Hc" in
  let line := fresh "line" in
  let m := fresh "m" in
  let Hm := fresh "Hm" in
  destruct (webhook_post_trichotomy body) as [Hno | [[Henv Hpair] | Hc]];
  [ rewrite (webhook_post_without_envelope self body net Hno)
  | destruct (webhook_post_unsupported self body net Henv Hpair)
      as (line & m & Hm & ->)
  | rewrite (webhook_post_created self body net Hc);
    trigger_cases self (get body "data") net ].

Ltac integration_cases self body :=
  let Hv := fresh "Hv" in
  destruct (truthy (validateMessage body)) eqn:Hv;
  [ rewrite (integration_post_valid self body Hv)
  | rewrite (integration_post_invalid self body Hv) ].

(** Every way a request can go: the route, the verb, then the handler. *)
Ltac serve_cases srv req net :=
  let Hroute := fresh "Hroute" in
  let Hverb := fresh "Hverb" in
  unfold serve;
  destruct (route (app srv) req) as [[]|] eqn:Hroute;
  destruct (req_verb req) eqn:Hverb;
  try match goal with
      | |- context [webhook_post ?s ?b ?n] => webhook_cases s b n
      | |- context [integration_post ?s ?b] => integration_cases s b
      end.

(** *** REST webhook: the branches the claims leave out *)

(** A POST to the webhook route whose body lacks [data], [resource] or
    [event] (or has no body at all) is answered 400; no outbound call is
    made and nothing is invoked. *)
Theorem malformed_envelope_rejected srv req net :
  webhook_post_to srv req ->
  ~ has_envelope (req_body req) ->
  let r := serve srv req net in
  statuses (trace r) = [400]
  /\ outbound (trace r) = []
  /\ invocations (trace r) = []
  /\ snd r = Normal tt.
Proof.
  intros Hto Hno r. subst r.
  rewrite (serve_webhook_post _ _ _ Hto).
  rewrite (webhook_post_without_envelope _ _ _ Hno).
  repeat split.
Qed.

(** A GET on the webhook route or on the integration route is answered 400
    with a reminder that a POST is expected, and does nothing else. *)
Theorem get_on_post_routes_rejected srv req net :
  req_verb req = GET ->
  route (app srv) req = Some RestWebhook
  \/ route (app srv) req = Some OutgoingIntegration ->
  let r := serve srv req net in
  statuses (trace r) = [400]
  /\ outbound (trace r) = []
  /\ invocations (trace r) = []
  /\ (messages (trace r) = [[Lit "This REST webhook is expecting an HTTP POST"]]
      \/ messages (trace r)
         = [[Lit "This outgoing integration is expecting an HTTP POST"]]).
Proof.
  intros Hv [Hr | Hr] r; subst r; unfold serve; rewrite Hr, Hv.
  - repeat split. left. reflexivity.
  - repeat split. right. reflexivity.
Qed.

(** When the outbound call fails at the transport level, the caller gets a
    single 500 and the callback is not invoked. *)
Theorem transport_error_answers_500 srv req (err : jsval) :
  webhook_post_to srv req ->
  dispatched_created (req_body req) ->
  truthy (get (get (req_body req) "data") "id") = true ->
  let r := serve srv req (Failed err) in
  statuses (trace r) = [500]
  /\ invocations (trace r) = []
  /\ messages (trace r)
     = [[Lit "could not retreive the text of the message with id:";
         Val (get (get (req_body req) "data") "id")]]
  /\ snd r = Normal tt.
Proof.
  intros Hto Hd Hid r. subst r.
  rewrite (serve_webhook_post _ _ _ Hto), (webhook_post_created _ _ _ Hd).
  rewrite (trigger_transport_error _ _ _ Hid).
  repeat split.
Qed.

(** *** Outgoing integration: the accepting branch *)

(** A POST to the integration route whose body passes Message validation is
    answered 200 first, then the registered callback is invoked once, with
    the body itself; no outbound call is made. *)
Theorem integration_valid_message_delivered srv req net (registered : callback) :
  integration_post_to srv req ->
  passes_validation (req_body req) ->
  handler (instance srv) = Some registered ->
  let r := serve srv req net in
  statuses (trace r) = [200]
  /\ responds_first 200 (trace r) = true
  /\ invocations (trace r) = [(registered, req_body req)]
  /\ outbound (trace r) = [].
Proof.
  intros Hto Hv Hh r. subst r.
  rewrite (serve_integration_post _ _ _ Hto).
  rewrite (integration_post_valid _ _ Hv), Hh.
  repeat split.
Qed.

(** *** What holds of every request *)

(** Whatever the request and whatever becomes of the outbound call, the
    caller is answered at most once, with 200, 400 or 500; at most one
    outbound call is made and at most one callback invocation. *)
Theorem one_response_at_most srv req net :
  let t := trace (serve srv req net) in
  (length (statuses t) <= 1)%nat
  /\ forallb known_status (statuses t) = true
  /\ (length (outbound t) <= 1)%nat
  /\ (length (invocations t) <= 1)%nat.
Proof.
  intros t. subst t. serve_cases srv req net;
    try destruct (handler (instance srv));
    cbn; repeat split; lia.
Qed.

(** No path forgets to answer: when a route takes the request and its
    handler runs to the end (the outbound call, if one was made, having come
    back with an answer or an error), exactly one response was sent. *)
Theorem completed_request_is_answered srv req net :
  route (app srv) req <> None ->
  snd (serve srv req net) = Normal tt ->
  exists code, statuses (trace (serve srv req net)) = [code].
Proof.
  intros Hrouted. serve_cases srv req net;
    try congruence;
    try destruct (handler (instance srv));
    cbn; intros Hend; try discriminate Hend; eexists; reflexivity.
Qed.

(** The callback is the last thing a handler does: an invocation on the
    trace is its final effect, and before it the caller was answered 200. *)
Theorem invocation_is_last srv req net (f : callback) (m : jsval) :
  In (f, m) (invocations (trace (serve srv req net))) ->
  exists pre,
    trace (serve srv req net) = pre ++ [Invoke f m]
    /\ invocations pre = []
    /\ statuses pre = [200].
Proof.
  serve_cases srv req net;
    try destruct (handler (instance srv));
    cbn; try tauto;
    intros [[= <- <-] | []];
    match goal with
    | |- exists pre, ?T = _ /\ _ => exists (removelast T)
    end;
    repeat split.
Qed.

(** An outbound call is made only for a POST on the webhook route that is a
    created-message envelope whose data carries an id, and it asks for
    that id with the configured token. *)
Theorem outbound_only_for_created_triggers srv req net :
  outbound (trace (serve srv req net)) <> [] ->
  webhook_post_to srv req
  /\ dispatched_created (req_body req)
  /\ truthy (get (get (req_body req) "data") "id") = true
  /\ outbound (trace (serve srv req net))
     = [options (instance srv) (get (get (req_body req) "data") "id")].
Proof.
  serve_cases srv req net;
    try destruct (handler (instance srv));
    cbn; intros Hout; try (exfalso; apply Hout; reflexivity);
    repeat first [assumption | reflexivity | split].
Qed.

(** *** Registration *)

Lemma serve_invokes_registered srv req net (f : callback) (m : jsval) :
  In (f, m) (invocations (trace (serve srv req net))) ->
  handler (instance srv) = Some f.
Proof.
  unfold serve.
  destruct (route (app srv) req) as [[]|]; destruct (req_verb req);
    try (cbn; tauto);
    intros H;
    first [ apply (webhook_post_invokes_validated _ _ _ _ _ H)
          | apply (integration_post_invokes_validated _ _ _ _ H) ].
Qed.

(** Without a registered callback nothing is ever invoked, yet a valid
    message on the integration route is still answered 200, "processed". *)
Theorem unregistered_bot_acknowledges_and_drops srv req net :
  handler (instance srv) = None ->
  invocations (trace (serve srv req net)) = []
  /\ (integration_post_to srv req ->
      passes_validation (req_body req) ->
      statuses (trace (serve srv req net)) = [200]
      /\ messages (trace (serve srv req net))
         = [[Lit "message processed by integration"]]).
Proof.
  intros Hh. split.
  - destruct (invocations (trace (serve srv req net))) as [|[f m] rest] eqn:Hi;
      [reflexivity|].
    assert (Hin : In (f, m) (invocations (trace (serve srv req net))))
      by (rewrite Hi; left; reflexivity).
    apply serve_invokes_registered in Hin. congruence.
  - intros Hto Hv.
    rewrite (serve_integration_post _ _ _ Hto).
    rewrite (integration_post_valid _ _ Hv), Hh.
    split; reflexivity.
Qed.

(** [register] replaces: once [h] is registered, every invocation calls [h],
    whatever had been registered before. *)
Theorem last_registration_wins srv req net (h g : callback) (m : jsval) :
  In (g, m) (invocations (trace (serve (registered_with srv h) req net))) ->
  g = h.
Proof.
  intros Hin. apply serve_invokes_registered in Hin.
  cbn in Hin. congruence.
Qed.

Lemma webhook_post_answers_alike self self' body net :
  config self = config self' ->
  let t := trace (webhook_post self body net) in
  let t' := trace (webhook_post self' body net) in
  statuses t = statuses t' /\ outbound t = outbound t'
  /\ messages t = messages t'
  /\ snd (webhook_post self body net) = snd (webhook_post self' body net).
Proof.
  intros Hcfg. cbv zeta.
  unfold webhook_post, triggerMessageCreatedEvent, execute, options.
  cbv zeta. rewrite Hcfg.
  destruct (negb (truthy body) || negb (truthy (get body "data"))
            || negb (truthy (get body "resource"))
            || negb (truthy (get body "event")));
    [cbn; repeat split|].
  destruct (is_string "messages" (get body "resource"));
    [destruct (is_string "created" (get body "event"))|];
    try (cbn; repeat split; fail).
  destruct (negb (truthy (get (get body "data") "id")));
    [cbn; repeat split|].
  destruct net as [statusCode [payload|] | err];
    cbn -[validateMessage Z.eqb]; try (repeat split; fail).
  destruct (negb (statusCode =? 200));
    [cbn; repeat split|].
  destruct (negb (truthy (validateMessage payload)));
    destruct (handler self), (handler self');
    cbn -[validateMessage]; repeat split.
Qed.

Lemma integration_post_answers_alike self self' body :
  let t := trace (integration_post self body) in
  let t' := trace (integration_post self' body) in
  statuses t = statuses t' /\ outbound t = outbound t'
  /\ messages t = messages t'
  /\ snd (integration_post self body) = snd (integration_post self' body).
Proof.
  cbv zeta.
  destruct (truthy (validateMessage body)) eqn:Hv.
  - rewrite !(integration_post_valid _ _ Hv).
    destruct (handler self), (handler self'); cbn; repeat split.
  - rewrite !(integration_post_invalid _ _ Hv). repeat split.
Qed.

(** What the caller and the platform see does not depend on registration:
    the responses and the outbound call are the same with and without a
    callback. *)
Theorem registration_does_not_change_responses srv req net (f : callback) :
  let r := serve srv req net in
  let r' := serve (registered_with srv f) req net in
  statuses (trace r') = statuses (trace r)
  /\ outbound (trace r') = outbound (trace r)
  /\ messages (trace r') = messages (trace r).
Proof.
  cbv zeta. unfold serve. cbn [registered_with app instance].
  destruct (route (app srv) req) as [[]|]; destruct (req_verb req);
    try (repeat split; fail).
  - destruct (webhook_post_answers_alike
                (register (instance srv) f) (instance srv)
                (req_body req) net eq_refl) as (H1 & H2 & H3 & _).
    repeat split; assumption.
  - destruct (integration_post_answers_alike
                (register (instance srv) f) (instance srv) (req_body req))
      as (H1 & H2 & H3 & _).
    repeat split; assumption.
Qed.

(** *** The constructor and its routes *)





(** The port handed to [listen] is the configured one when it is truthy,
    else the environment's when that is truthy, else 8080; it is never a
    falsy value, so a configured port 0 is not honoured. *)
Theorem port_fallback (cfg : jsval) now env_PORT :
  let srv := Webhook (callback := callback) cfg now env_PORT in
  truthy (port srv) = true
  /\ (truthy (get cfg "port") = true -> port srv = get cfg "port")
  /\ (truthy (get cfg "port") = false -> truthy env_PORT = true ->
      port srv = env_PORT)
  /\ (truthy (get cfg "port") = false -> truthy env_PORT = false ->
      port srv = number_8080).
Proof.
  intros srv.
  assert (Hport : port srv = jor (get cfg "port") (jor env_PORT number_8080)).
  { subst srv. unfold Webhook. cbn [port].
    destruct (truthy cfg) eqn:Hc; cbn [negb]; [reflexivity|].
    rewrite (get_of_falsy _ _ Hc). reflexivity. }
  rewrite Hport. unfold jor.
  destruct (truthy (get cfg "port")) eqn:Hp;
    destruct (truthy env_PORT) eqn:He;
    repeat split; intros; try congruence; reflexivity.
Qed.



End Coverage.

(** ** The further properties at work on sample requests *)

Lemma valideTrigger_accepts_trigger_shape_witness :
  valideTrigger sample_unnamed_trigger = JUndefined.
Proof.
  apply (proj1 (valideTrigger_accepts_trigger_shape sample_unnamed_trigger) "name").
  - simpl. tauto.
  - reflexivity.
Defined.

Lemma validators_reject_non_objects_witness :
  validateMessage (JArr [sample_message]) = JUndefined
  /\ valideTrigger (JArr [sample_message]) = JUndefined.
Proof.
  apply (validators_reject_non_objects (JArr [sample_message])).
  reflexivity.
Defined.

Lemma validateMessage_ignores_other_fields_witness :
  validateMessage (JObj [("toPersonId", JStr "p2"); ("id", JStr "m1");
                         ("personId", JStr "p1");
                         ("personEmail", JStr "matt@example.com");
                         ("roomId", JStr "r1"); ("text", JStr "PROJECT UPDATE");
                         ("created", JStr "2015-10-18T14:26:16+00:00")])
  = JObj [("toPersonId", JStr "p2"); ("id", JStr "m1");
          ("personId", JStr "p1");
          ("personEmail", JStr "matt@example.com");
          ("roomId", JStr "r1"); ("text", JStr "PROJECT UPDATE");
          ("created", JStr "2015-10-18T14:26:16+00:00")].
Proof.
  apply (proj1 (validateMessage_ignores_other_fields
                  "toPersonId" (JStr "p2")
                  [("id", JStr "m1"); ("personId", JStr "p1");
                   ("personEmail", JStr "matt@example.com");
                   ("roomId", JStr "r1"); ("text", JStr "PROJECT UPDATE");
                   ("created", JStr "2015-10-18T14:26:16+00:00")]
                  ltac:(simpl; intuition discriminate))).
  reflexivity.
Defined.

Lemma malformed_envelope_rejected_witness :
  let r := serve webhook_bot (post "/webhook" sample_eventless)
                 (Answered 200 (Json sample_message)) in
  statuses (trace r) = [400]
  /\ outbound (trace r) = []
  /\ invocations (trace r) = []
  /\ snd r = Normal tt.
Proof.
  apply (malformed_envelope_rejected webhook_bot (post "/webhook" sample_eventless)).
  - split; reflexivity.
  - intros (_ & _ & He). discriminate He.
Defined.

Lemma get_on_post_routes_rejected_witness :
  let r := serve webhook_bot (fetch "/webhook") (Failed JNull) in
  statuses (trace r) = [400]
  /\ outbound (trace r) = []
  /\ invocations (trace r) = []
  /\ (messages (trace r) = [[Lit "This REST webhook is expecting an HTTP POST"]]
      \/ messages (trace r)
         = [[Lit "This outgoing integration is expecting an HTTP POST"]]).
Proof.
  apply (get_on_post_routes_rejected webhook_bot (fetch "/webhook")).
  - reflexivity.
  - left. reflexivity.
Defined.

Lemma transport_error_answers_500_witness :
  let r := serve webhook_bot (post "/webhook" (envelope "messages" "created"))
                 (Failed (JObj [("code", JStr "ECONNRESET")])) in
  statuses (trace r) = [500]
  /\ invocations (trace r) = []
  /\ messages (trace r)
     = [[Lit "could not retreive the text of the message with id:";
         Val (JStr "m1")]]
  /\ snd r = Normal tt.
Proof.
  apply (transport_error_answers_500
           webhook_bot (post "/webhook" (envelope "messages" "created"))).
  - split; reflexivity.
  - repeat split.
  - reflexivity.
Defined.

Lemma bad_status_with_json_body_witness :
  let t := trace (serve webhook_bot (post "/webhook" (envelope "messages" "created"))
                        (Answered 404 (Json (JObj [("message", JStr "not found")])))) in
  statuses t = [500] /\ invocations t = [].
Proof.
  apply (bad_status_with_json_body
           webhook_bot (post "/webhook" (envelope "messages" "created"))).
  - split; reflexivity.
  - repeat split.
  - reflexivity.
  - discriminate.
Defined.

Lemma malformed_body_unanswered_witness :
  let r := serve webhook_bot (post "/webhook" (envelope "messages" "created"))
                 (Answered 200 Malformed) in
  statuses (trace r) = [] /\ invocations (trace r) = []
  /\ snd r = Throw SyntaxError.
Proof.
  apply (malformed_body_unanswered
           webhook_bot (post "/webhook" (envelope "messages" "created"))).
  - split; reflexivity.
  - repeat split.
  - reflexivity.
Defined.

Lemma integration_valid_message_delivered_witness :
  let r := serve default_bot (post "/integration" sample_message) (Failed JNull) in
  statuses (trace r) = [200]
  /\ responds_first 200 (trace r) = true
  /\ invocations (trace r) = [("onMessage", sample_message)]
  /\ outbound (trace r) = [].
Proof.
  apply (integration_valid_message_delivered
           default_bot (post "/integration" sample_message)).
  - split; reflexivity.
  - reflexivity.
  - reflexivity.
Defined.

Lemma completed_request_is_answered_witness :
  exists code,
    statuses (trace (serve webhook_bot (fetch "/webhook") (Failed JNull)))
    = [code].
Proof.
  apply (completed_request_is_answered
           webhook_bot (fetch "/webhook") (Failed JNull)).
  - discriminate.
  - reflexivity.
Defined.

Lemma invocation_is_last_witness :
  exists pre,
    trace (serve default_bot (post "/integration" sample_message) (Failed JNull))
    = pre ++ [Invoke "onMessage" sample_message]
    /\ invocations pre = []
    /\ statuses pre = [200].
Proof.
  apply (invocation_is_last
           default_bot (post "/integration" sample_message) (Failed JNull)).
  simpl. left. reflexivity.
Defined.

Lemma outbound_only_for_created_triggers_witness :
  webhook_post_to webhook_bot (post "/webhook" (envelope "messages" "created"))
  /\ dispatched_created (envelope "messages" "created")
  /\ truthy (get (get (envelope "messages" "created") "data") "id") = true
  /\ outbound (trace (serve webhook_bot
                            (post "/webhook" (envelope "messages" "created"))
                            (Failed JNull)))
     = [options (instance webhook_bot) (JStr "m1")].
Proof.
  apply (outbound_only_for_created_triggers
           webhook_bot (post "/webhook" (envelope "messages" "created"))
           (Failed JNull)).
  discriminate.
Defined.

Lemma unregistered_bot_acknowledges_and_drops_witness :
  invocations (trace (serve silent_bot
                            (post "/webhook" (envelope "messages" "created"))
                            (Answered 200 (Json sample_message)))) = [].
Proof.
  apply (proj1 (unregistered_bot_acknowledges_and_drops
                  silent_bot (post "/webhook" (envelope "messages" "created"))
                  (Answered 200 (Json sample_message)) eq_refl)).
Defined.

Lemma last_registration_wins_witness :
  In ("later", sample_message)
     (invocations (trace (serve (registered_with webhook_bot "later")
                                (post "/webhook" (envelope "messages" "created"))
                                (Answered 200 (Json sample_message)))))
  /\ "later" = "later".
Proof.
  assert (Hin : In ("later", sample_message)
                   (invocations
                      (trace (serve (registered_with webhook_bot "later")
                                    (post "/webhook" (envelope "messages" "created"))
                                    (Answered 200 (Json sample_message))))))
    by (simpl; left; reflexivity).
  split; [exact Hin|].
  exact (last_registration_wins
           webhook_bot (post "/webhook" (envelope "messages" "created"))
           (Answered 200 (Json sample_message)) "later" "later" sample_message
           Hin).
Defined.


Lemma port_fallback_witness :
  port (callback := string) (Webhook integration_config 7 (JStr "3000"))
  = JStr "3000".
Proof.
  apply (proj1 (proj2 (proj2 (port_fallback integration_config 7 (JStr "3000")))));
    reflexivity.
Defined.



